(** * Control logic of mirgecom's simulation utilities and stepper

    Shallow embedding of
    - [mirgecom/simutil.py]: [check_step], [inviscid_sim_timestep],
      [sim_checkpoint];
    - [mirgecom/steppers.py]: [euler_flow_stepper];
    - [examples/pulse-mpi.py]: the argument binding of the call that
      [my_checkpoint] makes to [sim_checkpoint].

    Floating-point scalars (times, time steps, errors, tolerances) are
    modelled as rationals [Q]; the concrete inputs used below are dyadic,
    so they are exact in binary floating point as well.  The numerical
    collaborators (discretization, RK4 update, CFL time step, equation of
    state, exact solution, [compare_states]) are opaque and enter as
    section variables.  Logging and visualization dumps are recorded as an
    event trace; Python exceptions are an explicit outcome. *)

From Stdlib Require Import ZArith QArith Qabs Lqa List String Bool Lia.
Import ListNotations.
Open Scope string_scope.
Open Scope list_scope.

(** ** Python-level results: a value or a raised exception, plus a trace *)

(** Exceptions that the modelled code can raise. [ExactSolutionMismatch]
    is the exception class of [mirgecom.simutil] that carries the step,
    time and state of a run. *)
Inductive exn (State : Type) : Type :=
| ValueError (msg : string)
| ZeroDivisionError
| ExactSolutionMismatch (step : Z) (t : Q) (state : State).
Arguments ValueError {State} msg.
Arguments ZeroDivisionError {State}.
Arguments ExactSolutionMismatch {State} step t state.

Inductive outcome (State A : Type) : Type :=
| Ret (a : A)
| Raise (e : exn State).
Arguments Ret {State A} a.
Arguments Raise {State A} e.

(** Observable effects on the calling process. *)
Inductive logmsg : Type :=
| MsgText (s : string)
(** [make_status_message(t, step, dt, cfl, dv)] followed by [Err(max_errors)] *)
| MsgStatus (t : Q) (step : Z) (dt cfl : Q) (errs : list Q).

Inductive event : Type :=
| EvNodes                                (** [thaw(actx, discr.nodes())] *)
| EvEos                                  (** [dv = eos(q)] *)
| EvExact (t : Q)                        (** [exact_soln(t=t, x_vec=nodes)] *)
| EvInfo (m : logmsg)                    (** [logger.info(...)] *)
| EvError (s : string)                   (** [logger.error(...)] *)
| EvDump (basename : string) (step : Z) (with_exact : bool).
                                         (** visualization file written *)

(** A small error-and-trace monad. *)
Definition M (State A : Type) : Type := (outcome State A * list event)%type.

Definition ret {State A} (a : A) : M State A := (Ret a, []).
Definition raise {State A} (e : exn State) : M State A := (Raise e, []).
Definition emit {State} (e : event) : M State unit := (Ret tt, [e]).

Definition bind {State A B} (m : M State A) (k : A -> M State B) : M State B :=
  match m with
  | (Ret a, tr) => let (r, tr') := k a in (r, tr ++ tr')
  | (Raise e, tr) => (Raise e, tr)
  end.

Notation "x <- m ;; k" := (bind m (fun x => k))
  (at level 100, m at next level, k at level 200, right associativity).
Notation "m ;;; k" := (bind m (fun _ => k))
  (at level 100, k at level 200, right associativity).

(** Strict float comparison [a > b] on the model's scalars. *)
Definition Qgtb (a b : Q) : bool := negb (Qle_bool a b).

(** Maximum of two scalars. *)
Definition qmax (a b : Q) : Q := if Qle_bool a b then b else a.

(** Maximum of a non-empty list [x :: xs]. *)
Definition list_max (x : Q) (xs : list Q) : Q := fold_left qmax xs x.

(** [np.max] / [max] over a list: raises on an empty sequence. *)
Definition np_max {State} (l : list Q) : M State Q :=
  match l with
  | [] => raise (ValueError "zero-size array to reduction operation maximum")
  | x :: xs => ret (list_max x xs)
  end.

(** ** [check_step] (simutil.py) *)

(** Python's [%] on integers is the floored modulo, as [Z.modulo]. *)
Definition check_step (step interval : Z) : bool :=
  (if interval =? 0 then true
   else if interval <? 0 then false
   else if step mod interval =? 0 then true
   else false)%Z.

(** ** [inviscid_sim_timestep] (simutil.py) *)

Section Timestep.
Context {Discr State Eos : Type}.
(** [mirgecom.euler.get_inviscid_timestep(discr=..., q=..., cfl=..., eos=...)] *)
Variable get_inviscid_timestep : Discr -> State -> Q -> Eos -> Q.

Definition inviscid_sim_timestep (discr : Discr) (state : State) (t dt cfl : Q)
    (eos : Eos) (t_final : Q) (constant_cfl : bool) : Q :=
  let mydt : Q := if constant_cfl
              then get_inviscid_timestep discr state cfl eos
              else dt in
  if Qgtb (t + mydt)%Q t_final then (t_final - t)%Q else mydt.

End Timestep.

(** ** [sim_checkpoint] (simutil.py) *)

Section Checkpoint.
Context {State : Type}.
(** [mirgecom.checkstate.compare_states(red_state, blue_state)]: the
    per-field maximum absolute error between two states. *)
Variable compare_states : State -> State -> list Q.

(** The arguments [discr], [visualizer], [eos] and [logger] are the
    collaborators whose calls appear as events; [exact_soln] is [None]
    when no reference solution is supplied; [comm] is [None] or
    [Some (comm.Get_rank())]. *)
Definition sim_checkpoint (q : State) (vizname : string)
    (exact_soln : option (Q -> State)) (step : Z) (t dt cfl : Q)
    (nstatus nviz : Z) (exittol : Q) (constant_cfl : bool) (comm : option Z)
    : M State Z :=
  let do_viz := check_step step nviz in
  let do_status := check_step step nstatus in
  if negb do_viz && negb do_status then ret 0%Z else
  emit EvNodes ;;;
  let rank := match comm with Some r => r | None => 0%Z end in
  let checkpoint_status := 0%Z in
  emit EvEos ;;;
  expected_state <-
    (if (do_status || do_viz)%bool then
       match exact_soln with
       | Some f => emit (EvExact t) ;;; ret (Some (f t))
       | None => ret None
       end
     else ret None) ;;
  let have_exact := match expected_state with Some _ => true | None => false end in
  checkpoint_status <-
    (if do_status then
       match expected_state with
       | Some e =>
           let max_errors := compare_states q e in
           (if (rank =? 0)%Z
            then emit (EvInfo (MsgStatus t step dt cfl max_errors))
            else ret tt) ;;;
           maxerr <- np_max max_errors ;;
           if Qgtb maxerr exittol
           then emit (EvError "Solution failed to follow expected result.") ;;;
                ret 1%Z
           else ret checkpoint_status
       | None => ret checkpoint_status
       end
     else ret checkpoint_status) ;;
  (if do_viz then emit (EvDump vizname step have_exact) else ret tt) ;;;
  ret checkpoint_status.

End Checkpoint.

(** ** [euler_flow_stepper] (steppers.py) *)

(** Strict float comparison [a < b]. *)
Definition Qltb (a b : Q) : bool := Qgtb b a.

(** The entries of the [parameters] dictionary that drive the control
    flow; [mesh], [order], [initializer], [boundaries] and [eos] are the
    collaborators of the section below. *)
Record parameters : Type := {
  p_time : Q;
  p_tfinal : Q;
  p_exittol : Q;
  p_casename : string;
  p_cfl : Q;
  p_dt : Q;
  p_constantcfl : bool;
  p_nstatus : Z
}.

(** Python values a caller can receive: a float, or a
    [(step, t, state)] triple. *)
Inductive pyval (State : Type) : Type :=
| PyFloat (x : Q)
| PyTriple (step : Z) (t : Q) (state : State).
Arguments PyFloat {State} x.
Arguments PyTriple {State} step t state.

(** The local variables of the stepping loop. *)
Record loop_state (State : Type) : Type := {
  ls_t : Q;
  ls_dt : Q;
  ls_cfl : Q;
  ls_sdt : Q;
  ls_istep : Z;
  ls_fields : State
}.
Arguments ls_t {State} _.
Arguments ls_dt {State} _.
Arguments ls_cfl {State} _.
Arguments ls_sdt {State} _.
Arguments ls_istep {State} _.
Arguments ls_fields {State} _.
Arguments Build_loop_state {State} _ _ _ _ _ _.

Section Stepper.
Context {State : Type}.
(** [rk4_step(fields, t, dt, rhs)], with [rhs] the run's
    [inviscid_operator] closure. *)
Variable rk4_step : State -> Q -> Q -> State.
(** [get_inviscid_timestep(discr, fields, c=cfl, eos=eos)] *)
Variable get_inviscid_timestep : State -> Q -> Q.
(** [initializer(t, nodes)] *)
Variable initializer : Q -> State.
(** [[np.max(np.abs((fields - expected)[i].get())) for i in range(dim + 2)]] *)
Variable resid_maxabs : State -> State -> list Q.
Variable p : parameters.

(** The closure [write_soln]: it reads the loop's current [istep], [t],
    [dt], [cfl] and [fields]. *)
Definition write_soln (istep : Z) (t dt cfl : Q) (fields : State)
    : M State (list Q) :=
  emit EvEos ;;;
  emit (EvExact t) ;;;
  let maxerr := resid_maxabs fields (initializer t) in
  emit (EvInfo (MsgStatus t istep dt cfl maxerr)) ;;;
  emit (EvDump (p_casename p) istep true) ;;;
  ret maxerr.

(** One iteration of [while t < t_final: ...]. *)
Definition loop_body (s : loop_state State) : M State (loop_state State) :=
  dc <- (if p_constantcfl p then ret (ls_sdt s, ls_cfl s)
         else if Qeq_bool (ls_sdt s) 0 then raise ZeroDivisionError
         else ret (ls_dt s, ls_dt s / ls_sdt s)) ;;
  let dt := fst dc in
  let cfl := snd dc in
  (if (p_nstatus p >? 0)%Z then
     if (ls_istep s mod p_nstatus p =? 0)%Z then
       _ <- write_soln (ls_istep s) (ls_t s) dt cfl (ls_fields s) ;; ret tt
     else ret tt
   else ret tt) ;;;
  let fields := rk4_step (ls_fields s) (ls_t s) dt in
  let t := (ls_t s + dt)%Q in
  let istep := (ls_istep s + 1)%Z in
  let sdt := get_inviscid_timestep fields cfl in
  ret (Build_loop_state t dt cfl sdt istep fields).

(** The [while] loop, run with [fuel] iterations at most ([None] when the
    fuel runs out). *)
Fixpoint run_loop (fuel : nat) (s : loop_state State)
    : option (M State (loop_state State)) :=
  match fuel with
  | O => None
  | S n =>
      if Qltb (ls_t s) (p_tfinal p) then
        match loop_body s with
        | (Ret s', tr) =>
            match run_loop n s' with
            | Some (r, tr') => Some (r, tr ++ tr')
            | None => None
            end
        | (Raise e, tr) => Some (Raise e, tr)
        end
      else Some (ret s)
  end.

(** The code after the loop. *)
Definition finish (s : loop_state State) : M State (pyval State) :=
  maxerr <-
    (if (p_nstatus p >? 0)%Z then
       emit (EvInfo (MsgText "Writing final dump.")) ;;;
       errs <- write_soln (ls_istep s) (ls_t s) (ls_dt s) (ls_cfl s) (ls_fields s) ;;
       np_max errs
     else
       emit (EvExact (ls_t s)) ;;;
       np_max (resid_maxabs (ls_fields s) (initializer (ls_t s)))) ;;
  if Qgtb maxerr (p_exittol p)
  then raise (ValueError "Solution failed to follow expected result.")
  else emit (EvInfo (MsgText "Goodbye!")) ;;; ret (PyFloat maxerr).

(** The loop variables on entry: [fields = initializer(0, nodes)] and
    [sdt = get_inviscid_timestep(discr, fields, c=cfl, eos=eos)]. *)
Definition init_state : loop_state State :=
  let fields := initializer 0 in
  Build_loop_state (p_time p) (p_dt p) (p_cfl p)
    (get_inviscid_timestep fields (p_cfl p)) 0%Z fields.

Definition euler_flow_stepper (fuel : nat) : option (M State (pyval State)) :=
  if Qle_bool (p_tfinal p) (p_time p) then Some (ret (PyFloat 0)) else
  match run_loop fuel init_state with
  | Some m =>
      Some (emit (EvInfo (MsgText "Num elements, Timestep, Final time, ...")) ;;;
            s <- m ;; finish s)
  | None => None
  end.

End Stepper.

(** ** Concrete collaborators for evaluating the model

    A one-field state [Q]; the error of a state against a reference is
    [|q - expected|]. *)
Module Demo.

Definition compare_states (a b : Q) : list Q := [Qabs (a - b)].

(** The RK4 update of the zero right-hand side leaves the state as it is. *)
Definition rk4_step (fields : Q) (t dt : Q) : Q := fields.

(** A CFL time step of 1 for every state. *)
Definition get_inviscid_timestep (fields cfl : Q) : Q := 1.

(** The constant solution 0, and a solution growing with time. *)
Definition init_zero (t : Q) : Q := 0.
Definition init_linear (t : Q) : Q := t.

Definition resid_maxabs (a b : Q) : list Q := [Qabs (a - b)].

(** A run from [t = 0] to [t_final = 1] with a fixed time step. *)
Definition params (dt : Q) (nstatus : Z) (exittol : Q) : parameters := {|
  p_time := 0; p_tfinal := 1; p_exittol := exittol; p_casename := "pulse";
  p_cfl := 1; p_dt := dt; p_constantcfl := false; p_nstatus := nstatus |}.

(** The stepper, its loop and its entry state over these collaborators. *)
Definition stepper (init : Q -> Q) (ps : parameters) (fuel : nat)
    : option (M Q (pyval Q)) :=
  euler_flow_stepper rk4_step get_inviscid_timestep init resid_maxabs ps fuel.

Definition loop (init : Q -> Q) (ps : parameters) (fuel : nat) (s : loop_state Q)
    : option (M Q (loop_state Q)) :=
  run_loop rk4_step get_inviscid_timestep init resid_maxabs ps fuel s.

Definition start (init : Q -> Q) (ps : parameters) : loop_state Q :=
  init_state get_inviscid_timestep init ps.

End Demo.

(** ** Views on the event trace *)

Definition is_dump (e : event) : bool :=
  match e with EvDump _ _ _ => true | _ => false end.

Definition is_info (e : event) : bool :=
  match e with EvInfo _ => true | _ => false end.

Definition is_exact (e : event) : bool :=
  match e with EvExact _ => true | _ => false end.

Definition is_some {A} (o : option A) : bool :=
  match o with Some _ => true | None => false end.

(** ** Python argument binding (for the call in [examples/pulse-mpi.py]) *)

(** A formal parameter of a Python function: its name and whether it has
    a default value. *)
Record py_param : Type := { pp_name : string; pp_default : bool }.

Inductive call_result : Type :=
| CallBound
| TypeErrorTooManyPositional
| TypeErrorUnexpectedKeyword (kw : string)
| TypeErrorMultipleValues (kw : string)
| TypeErrorMissing (names : list string).

Definition names_of (sig : list py_param) : list string := map pp_name sig.

(** The keywords, in call order: the first one that names no parameter,
    or a parameter already bound by position, is a [TypeError]. *)
Fixpoint check_keywords (all bound : list string) (kws : list string) : option call_result :=
  match kws with
  | [] => None
  | k :: ks =>
      if negb (existsb (String.eqb k) all) then Some (TypeErrorUnexpectedKeyword k)
      else if existsb (String.eqb k) bound then Some (TypeErrorMultipleValues k)
      else check_keywords all bound ks
  end.

(** Binding [npos] positional arguments and the keyword arguments [kws]
    to the parameters [sig]: too many positionals, a bad keyword, or a
    parameter without default left unbound is a [TypeError]. *)
Definition py_bind (sig : list py_param) (npos : nat) (kws : list string) : call_result :=
  if Nat.ltb (List.length sig) npos then TypeErrorTooManyPositional else
  match check_keywords (names_of sig) (names_of (firstn npos sig)) kws with
  | Some err => err
  | None =>
      match map pp_name (filter (fun q => negb (pp_default q) &&
                                           negb (existsb (String.eqb (pp_name q)) kws))
                                (skipn npos sig)) with
      | [] => CallBound
      | missing => TypeErrorMissing missing
      end
  end.

(** The parameters of [sim_checkpoint] (simutil.py, lines 71-73). *)
Definition sim_checkpoint_signature : list py_param :=
  [ {| pp_name := "discr"; pp_default := false |};
    {| pp_name := "visualizer"; pp_default := false |};
    {| pp_name := "eos"; pp_default := false |};
    {| pp_name := "logger"; pp_default := false |};
    {| pp_name := "q"; pp_default := false |};
    {| pp_name := "vizname"; pp_default := false |};
    {| pp_name := "exact_soln"; pp_default := true |};
    {| pp_name := "step"; pp_default := true |};
    {| pp_name := "t"; pp_default := true |};
    {| pp_name := "dt"; pp_default := true |};
    {| pp_name := "cfl"; pp_default := true |};
    {| pp_name := "nstatus"; pp_default := true |};
    {| pp_name := "nviz"; pp_default := true |};
    {| pp_name := "exittol"; pp_default := true |};
    {| pp_name := "constant_cfl"; pp_default := true |};
    {| pp_name := "comm"; pp_default := true |} ].

(** The keywords of the call in [my_checkpoint] (pulse-mpi.py, lines
    149-152), after the positionals [discr, visualizer, eos]. *)
Definition my_checkpoint_keywords : list string :=
  ["q"; "vizname"; "step"; "t"; "dt"; "nstatus"; "nviz"; "exittol";
   "constant_cfl"; "comm"].

(** * Properties *)

(** ** Helper lemmas *)

Lemma Qgtb_true (a b : Q) : Qgtb a b = true <-> b < a.
Proof.
  unfold Qgtb. rewrite negb_true_iff. split.
  - intros H. apply Qnot_le_lt. intros H'. apply Qle_bool_iff in H'. congruence.
  - intros H. destruct (Qle_bool a b) eqn:E; [|reflexivity].
    apply Qle_bool_iff in E. exfalso. apply (Qlt_not_le b a); assumption.
Qed.

Lemma Qgtb_false (a b : Q) : Qgtb a b = false <-> a <= b.
Proof.
  unfold Qgtb. rewrite negb_false_iff. apply Qle_bool_iff.
Qed.

Lemma qmax_ge_l (a b : Q) : a <= qmax a b.
Proof.
  unfold qmax. destruct (Qle_bool a b) eqn:E.
  - apply Qle_bool_iff. exact E.
  - apply Qle_refl.
Qed.

Lemma qmax_ge_r (a b : Q) : b <= qmax a b.
Proof.
  unfold qmax. destruct (Qle_bool a b) eqn:E.
  - apply Qle_refl.
  - apply Qlt_le_weak, Qnot_le_lt. intros H. apply Qle_bool_iff in H. congruence.
Qed.

Lemma list_max_ge_acc (x : Q) (xs : list Q) : x <= list_max x xs.
Proof.
  unfold list_max. revert x. induction xs as [|y ys IH]; intros x; simpl.
  - apply Qle_refl.
  - eapply Qle_trans; [apply qmax_ge_l | apply IH].
Qed.

(** [list_max x xs] bounds every element and is one of them: it is the
    maximum that [np.max] computes. *)
Lemma list_max_spec (x : Q) (xs : list Q) :
  (forall y, In y (x :: xs) -> y <= list_max x xs) /\ In (list_max x xs) (x :: xs).
Proof.
  unfold list_max. revert x. induction xs as [|y ys IH]; intros x; simpl.
  - split; [intros z [<-|[]]; apply Qle_refl | left; reflexivity].
  - destruct (IH (qmax x y)) as [Hub Hin]. split.
    + intros z [<-|[<-|Hz]].
      * eapply Qle_trans; [apply qmax_ge_l | apply Hub; left; reflexivity].
      * eapply Qle_trans; [apply qmax_ge_r | apply Hub; left; reflexivity].
      * apply Hub. right. exact Hz.
    + destruct Hin as [Heq|Hin].
      * rewrite <- Heq. unfold qmax. destruct (Qle_bool x y); simpl; auto.
      * right. right. exact Hin.
Qed.

(** ** [check_step] *)

(** Claim C7: an interval of 0 makes every step due, a negative interval
    none, and a positive interval exactly the steps it divides (Python's
    [step % interval == 0]); the function is total on all integers. *)
Theorem check_step_spec :
  forall step interval : Z,
    (interval = 0%Z -> check_step step interval = true) /\
    ((interval < 0)%Z -> check_step step interval = false) /\
    ((0 < interval)%Z -> check_step step interval = (step mod interval =? 0)%Z).
Proof.
  intros step interval. unfold check_step. repeat split; intros H.
  - subst interval. reflexivity.
  - destruct (Z.eqb_spec interval 0); [lia|].
    destruct (Z.ltb_spec interval 0); [reflexivity | lia].
  - destruct (Z.eqb_spec interval 0); [lia|].
    destruct (Z.ltb_spec interval 0); [lia|].
    destruct (step mod interval =? 0)%Z; reflexivity.
Qed.

Lemma check_step_spec_witness :
  check_step 5 0 = true /\ check_step 0 (-3) = false /\
  check_step (-8) 4 = (-8 mod 4 =? 0)%Z /\ check_step (-6) 4 = false.
Proof.
  split; [apply (proj1 (check_step_spec 5 0)); reflexivity|].
  split; [apply (proj1 (proj2 (check_step_spec 0 (-3)))); lia|].
  split; [apply (proj2 (proj2 (check_step_spec (-8) 4))); lia|].
  rewrite (proj2 (proj2 (check_step_spec (-6) 4))) by lia. reflexivity.
Defined.

(** ** [inviscid_sim_timestep] *)

(** Claim C3: from [t < t_final] the returned step never passes
    [t_final]; a step that would pass it is clipped to [t_final - t]; with
    [constant_cfl] false, a step [dt] that already fits is returned as it
    is. *)
Theorem inviscid_sim_timestep_clip :
  forall (Discr State Eos : Type) (g : Discr -> State -> Q -> Eos -> Q)
         discr state (t dt cfl : Q) eos (t_final : Q) (constant_cfl : bool),
    t < t_final ->
    let dt' := inviscid_sim_timestep g discr state t dt cfl eos t_final constant_cfl in
    t + dt' <= t_final /\
    (t_final < t + (if constant_cfl then g discr state cfl eos else dt) ->
       dt' = t_final - t) /\
    (constant_cfl = false -> t + dt <= t_final -> dt' = dt).
Proof.
  intros Discr State Eos g discr state t dt cfl eos t_final constant_cfl Hlt dt'.
  subst dt'. unfold inviscid_sim_timestep.
  set (mydt := if constant_cfl then g discr state cfl eos else dt).
  destruct (Qgtb (t + mydt) t_final) eqn:E.
  - apply Qgtb_true in E. repeat split.
    + lra.
    + intros Hc. subst mydt. rewrite Hc in E. lra.
  - apply Qgtb_false in E. repeat split.
    + exact E.
    + intros H. lra.
    + intros Hc _. subst mydt. rewrite Hc. reflexivity.
Qed.

Lemma inviscid_sim_timestep_clip_witness :
  let g := fun (_ : unit) (_ : Q) (_ : Q) (_ : unit) => (1 # 4) in
  (0 < 1) /\
  0 + inviscid_sim_timestep g tt 0 0 (3 # 4) 1 tt 1 false <= 1 /\
  inviscid_sim_timestep g tt 0 (1 # 2) (3 # 4) 1 tt 1 false = 1 # 2.
Proof.
  intros g. split; [reflexivity|]. split.
  - apply (inviscid_sim_timestep_clip unit Q unit g tt 0 0 (3 # 4) 1 tt 1 false).
    reflexivity.
  - apply (inviscid_sim_timestep_clip unit Q unit g tt 0 0 (1 # 2) 1 tt 1 false).
    + reflexivity.
    + reflexivity.
    + apply Qle_bool_iff. reflexivity.
Defined.

(** Claim C10: with [constant_cfl] false the returned step is a function
    of [(t, dt, t_final)] alone: [discr], [state], [cfl], [eos] and the
    CFL collaborator itself do not influence it. *)
Theorem inviscid_sim_timestep_fixed_noninterference :
  forall (Discr State Eos : Type) (g1 g2 : Discr -> State -> Q -> Eos -> Q)
         discr1 discr2 state1 state2 (cfl1 cfl2 : Q) eos1 eos2 (t dt t_final : Q),
    inviscid_sim_timestep g1 discr1 state1 t dt cfl1 eos1 t_final false =
    inviscid_sim_timestep g2 discr2 state2 t dt cfl2 eos2 t_final false.
Proof.
  intros. unfold inviscid_sim_timestep. reflexivity.
Qed.

(** ** [sim_checkpoint] *)

(** Unfolds the checkpoint and the monad, and splits the remaining
    Boolean tests and the rank. *)
Ltac unfold_checkpoint :=
  unfold sim_checkpoint, bind, emit, ret, raise, np_max; simpl.

Ltac split_ifs :=
  repeat match goal with
         | |- context [if ?b then _ else _] =>
             lazymatch b with
             | context [if _ then _ else _] => fail
             | _ => destruct b eqn:?
             end
         | |- context [match ?o with Some _ => _ | None => _ end] =>
             lazymatch o with
             | context [if _ then _ else _] => fail
             | _ => destruct o eqn:?
             end
         end; simpl.

(** Claim C6: when neither the status interval nor the visualization
    interval makes the step due, [sim_checkpoint] returns 0 with an empty
    trace: no nodes, no equation-of-state call, no reference solution, no
    log line, no dump. *)
Theorem sim_checkpoint_fast_path :
  forall (State : Type) (compare_states : State -> State -> list Q) (q : State)
         vizname exact_soln step t dt cfl nstatus nviz exittol constant_cfl comm,
    check_step step nviz = false ->
    check_step step nstatus = false ->
    sim_checkpoint compare_states q vizname exact_soln step t dt cfl
      nstatus nviz exittol constant_cfl comm = (Ret 0%Z, []).
Proof.
  intros State compare_states q vizname exact_soln step t dt cfl nstatus nviz
    exittol constant_cfl comm Hviz Hstatus.
  unfold sim_checkpoint. rewrite Hviz, Hstatus. reflexivity.
Qed.

Lemma sim_checkpoint_fast_path_witness :
  check_step 3 2 = false /\ check_step 3 (-1) = false /\
  sim_checkpoint Demo.compare_states 0 "pulse" (Some Demo.init_linear) 3 1 (1 # 2) 1
    (-1) 2 (1 # 1000) false None = (Ret 0%Z, []).
Proof.
  split; [reflexivity|]. split; [reflexivity|].
  apply sim_checkpoint_fast_path; reflexivity.
Defined.

(** Off status steps the checkpoint status stays 0. *)
Lemma sim_checkpoint_not_status_step :
  forall (State : Type) (compare_states : State -> State -> list Q) (q : State)
         vizname exact_soln step t dt cfl nstatus nviz exittol constant_cfl comm,
    check_step step nstatus = false ->
    fst (sim_checkpoint compare_states q vizname exact_soln step t dt cfl
           nstatus nviz exittol constant_cfl comm) = Ret 0%Z.
Proof.
  intros State compare_states q vizname exact_soln step t dt cfl nstatus nviz
    exittol constant_cfl comm Hstatus.
  unfold_checkpoint. rewrite Hstatus. simpl.
  destruct (check_step step nviz); simpl; [|reflexivity].
  destruct exact_soln; reflexivity.
Qed.

(** Claim C9: divergence is only reported on status steps: when the
    status interval does not make the step due, the result is 0 whatever
    the visualization interval, the reference solution and the error. *)
Theorem sim_checkpoint_status_only_on_status_steps :
  forall (State : Type) (compare_states : State -> State -> list Q) (q : State)
         vizname exact_soln step t dt cfl nstatus nviz exittol constant_cfl comm,
    check_step step nstatus = false ->
    fst (sim_checkpoint compare_states q vizname exact_soln step t dt cfl
           nstatus nviz exittol constant_cfl comm) = Ret 0%Z.
Proof.
  intros State compare_states q vizname exact_soln step t dt cfl nstatus nviz
    exittol constant_cfl comm Hstatus.
  apply sim_checkpoint_not_status_step. exact Hstatus.
Qed.

(** A visualization-only step ([nviz = 0], [nstatus = -1]) with a
    reference solution 1 and a state 0, far beyond [exittol]. *)
Lemma sim_checkpoint_status_only_on_status_steps_witness :
  check_step 4 (-1) = false /\
  fst (sim_checkpoint Demo.compare_states 0 "pulse" (Some (fun _ => 1)) 4 1 (1 # 2) 1
         (-1) 0 (1 # 1000) false None) = Ret 0%Z /\
  snd (sim_checkpoint Demo.compare_states 0 "pulse" (Some (fun _ => 1)) 4 1 (1 # 2) 1
         (-1) 0 (1 # 1000) false None) =
  [EvNodes; EvEos; EvExact 1; EvDump "pulse" 4 true].
Proof.
  split; [reflexivity|]. split.
  - apply sim_checkpoint_status_only_on_status_steps. reflexivity.
  - vm_compute. reflexivity.
Defined.

(** Claim C1: on a status step with a reference solution, whose
    per-field maximum errors are [x :: xs], [sim_checkpoint] returns 1,
    without raising, when their maximum exceeds [exittol], and 0 when it
    does not; without a reference solution, or off status steps, it
    returns 0. *)
Theorem sim_checkpoint_divergence_status :
  forall (State : Type) (compare_states : State -> State -> list Q) (q : State)
         vizname exact_soln step t dt cfl nstatus nviz exittol constant_cfl comm,
    (forall f x xs,
       check_step step nstatus = true ->
       exact_soln = Some f ->
       compare_states q (f t) = x :: xs ->
       (exittol < list_max x xs ->
          fst (sim_checkpoint compare_states q vizname exact_soln step t dt cfl
                 nstatus nviz exittol constant_cfl comm) = Ret 1%Z) /\
       (list_max x xs <= exittol ->
          fst (sim_checkpoint compare_states q vizname exact_soln step t dt cfl
                 nstatus nviz exittol constant_cfl comm) = Ret 0%Z)) /\
    (exact_soln = None \/ check_step step nstatus = false ->
       fst (sim_checkpoint compare_states q vizname exact_soln step t dt cfl
              nstatus nviz exittol constant_cfl comm) = Ret 0%Z).
Proof.
  intros State compare_states q vizname exact_soln step t dt cfl nstatus nviz
    exittol constant_cfl comm. split.
  - intros f x xs Hs Hf Hc. subst exact_soln.
    unfold_checkpoint. rewrite Hs. simpl. rewrite Hc. simpl.
    rewrite andb_false_r.
    split; intros Htol.
    + assert (E : Qgtb (list_max x xs) exittol = true) by (apply Qgtb_true; exact Htol).
      destruct (check_step step nviz), (match comm with Some r => r | None => 0%Z end =? 0)%Z;
        simpl; rewrite E; reflexivity.
    + assert (E : Qgtb (list_max x xs) exittol = false) by (apply Qgtb_false; exact Htol).
      destruct (check_step step nviz), (match comm with Some r => r | None => 0%Z end =? 0)%Z;
        simpl; rewrite E; reflexivity.
  - intros [Hn|Hs].
    + subst exact_soln. unfold_checkpoint.
      destruct (check_step step nviz), (check_step step nstatus); reflexivity.
    + apply sim_checkpoint_not_status_step; exact Hs.
Qed.

(** A status step ([nstatus = 0]) against the reference solution 1 for
    the state 0 with [exittol = 1e-16]: the error 1 exceeds it. *)
Lemma sim_checkpoint_divergence_status_witness :
  check_step 7 0 = true /\
  Some (fun _ : Q => 1) = Some (fun _ : Q => 1) /\
  Demo.compare_states 0 1 = [1] /\
  1 # (10 ^ 16) < list_max 1 [] /\
  fst (sim_checkpoint Demo.compare_states 0 "pulse" (Some (fun _ => 1)) 7 0 (1 # 2) 1
         0 (-1) (1 # (10 ^ 16)) false None) = Ret 1%Z.
Proof.
  split; [reflexivity|]. split; [reflexivity|]. split; [reflexivity|].
  split; [reflexivity|].
  apply (proj1 (sim_checkpoint_divergence_status Q Demo.compare_states 0 "pulse"
    (Some (fun _ => 1)) 7 0 (1 # 2) 1 0 (-1) (1 # (10 ^ 16)) false None)
    (fun _ => 1) 1 [] eq_refl eq_refl eq_refl).
  reflexivity.
Defined.

(** Claim C8 (code defect): the status line is emitted on rank 0 only,
    but the divergence message [logger.error(...)] is not rank-gated.  On
    rank 1, a status step with the error 1 above [exittol = 1e-16] logs
    the error line on that process. *)
Theorem sim_checkpoint_error_on_nonzero_rank :
  sim_checkpoint Demo.compare_states 0 "pulse" (Some (fun _ => 1)) 0 0 (1 # 2) 1
    0 (-1) (1 # (10 ^ 16)) false (Some 1%Z) =
  (Ret 1%Z, [EvNodes; EvEos; EvExact 0;
             EvError "Solution failed to follow expected result."]).
Proof.
  vm_compute. reflexivity.
Qed.

(** ** [euler_flow_stepper] *)

Section StepperProofs.
Context {State : Type}.
Variable rk4_step : State -> Q -> Q -> State.
Variable get_inviscid_timestep : State -> Q -> Q.
Variable initializer : Q -> State.
Variable resid_maxabs : State -> State -> list Q.
Variable p : parameters.

Local Abbreviation body := (loop_body rk4_step get_inviscid_timestep initializer resid_maxabs p).
Local Abbreviation loop := (run_loop rk4_step get_inviscid_timestep initializer resid_maxabs p).
Local Abbreviation fin := (finish initializer resid_maxabs p).
Local Abbreviation stepper :=
  (euler_flow_stepper rk4_step get_inviscid_timestep initializer resid_maxabs p).
Local Abbreviation init := (init_state get_inviscid_timestep initializer p).

Ltac unfold_stepper :=
  unfold loop_body, finish, write_soln, bind, emit, ret, raise, np_max; simpl.

(** One iteration advances the step counter by 1 and the clock by the
    [dt] it used, or raises [ZeroDivisionError] on [dt / sdt]. *)
Lemma loop_body_cases (s : loop_state State) :
  (exists s' tr, body s = (Ret s', tr) /\
     ls_istep s' = (ls_istep s + 1)%Z /\ ls_t s' = ls_t s + ls_dt s') \/
  (exists tr, body s = (Raise ZeroDivisionError, tr)).
Proof.
  unfold_stepper.
  destruct (p_constantcfl p); simpl;
    [|destruct (Qeq_bool (ls_sdt s) 0); simpl; [right; eexists; reflexivity|]];
    (destruct (p_nstatus p >? 0)%Z; simpl;
     [destruct (ls_istep s mod p_nstatus p =? 0)%Z; simpl|]);
    left; do 2 eexists; split; try reflexivity; simpl; split; reflexivity.
Qed.

Lemma loop_body_step (s s' : loop_state State) tr :
  body s = (Ret s', tr) ->
  ls_istep s' = (ls_istep s + 1)%Z /\ ls_t s' = ls_t s + ls_dt s'.
Proof.
  intros H. destruct (loop_body_cases s) as [(s1 & tr1 & E & Hi & Ht)|(tr1 & E)];
    rewrite E in H; inversion H; subst; auto.
Qed.

Lemma Qltb_true (a b : Q) : Qltb a b = true <-> a < b.
Proof. unfold Qltb. apply Qgtb_true. Qed.

Lemma Qltb_false (a b : Q) : Qltb a b = false <-> b <= a.
Proof. unfold Qltb. apply Qgtb_false. Qed.

(** The loop exits only once [t >= t_final]; if it ran at least one
    iteration, the final [t] is below [t_final] plus the last [dt]. *)
Lemma run_loop_exit (fuel : nat) :
  forall (s s' : loop_state State) tr,
    loop fuel s = Some (Ret s', tr) ->
    p_tfinal p <= ls_t s' /\
    (ls_t s < p_tfinal p -> ls_t s' < p_tfinal p + ls_dt s').
Proof.
  induction fuel as [|n IH]; intros s s' tr H; simpl in H; [discriminate|].
  destruct (Qltb (ls_t s) (p_tfinal p)) eqn:G.
  - apply Qltb_true in G.
    destruct (body s) as [[s1|e] tr1] eqn:B; [|discriminate].
    destruct (loop n s1) as [[r tr2]|] eqn:R; [|discriminate].
    inversion H; subst r tr.
    destruct (IH s1 s' tr2 R) as [Hge Hlt]. split; [exact Hge|].
    intros _. destruct (Qlt_le_dec (ls_t s1) (p_tfinal p)) as [L|L].
    + apply Hlt. exact L.
    + destruct n as [|n]; [discriminate|].
      simpl in R. rewrite (proj2 (Qltb_false _ _) L) in R.
      inversion R; subst s'.
      destruct (loop_body_step s s1 tr1 B) as [_ Ht]. rewrite Ht. lra.
  - apply Qltb_false in G. inversion H; subst s'. split; [exact G|].
    intros L. lra.
Qed.

(** A loop that raises, raises [ZeroDivisionError]. *)
Lemma run_loop_raise (fuel : nat) :
  forall (s : loop_state State) e tr,
    loop fuel s = Some (Raise e, tr) -> e = ZeroDivisionError.
Proof.
  induction fuel as [|n IH]; intros s e tr H; simpl in H; [discriminate|].
  destruct (Qltb (ls_t s) (p_tfinal p)); [|discriminate].
  destruct (loop_body_cases s) as [(s1 & tr1 & E & _)|(tr1 & E)]; rewrite E in H.
  - destruct (loop n s1) as [[r tr2]|] eqn:R; [|discriminate].
    inversion H; subst r. eapply IH. exact R.
  - inversion H. reflexivity.
Qed.

(** Claim C2 (amended): each iteration of the [while t < t_final] loop
    adds exactly 1 to [istep] and the [dt] it used to [t]; [dt] is not
    clipped, so the loop stops at the first [t >= t_final], and the final
    [t] stays below [t_final] plus the last [dt] used. *)
Theorem euler_flow_stepper_clock :
  (forall (s s' : loop_state State) tr,
     body s = (Ret s', tr) ->
     ls_istep s' = (ls_istep s + 1)%Z /\ ls_t s' = ls_t s + ls_dt s') /\
  (forall fuel (s s' : loop_state State) tr,
     ls_t s < p_tfinal p ->
     loop fuel s = Some (Ret s', tr) ->
     p_tfinal p <= ls_t s' /\ ls_t s' < p_tfinal p + ls_dt s').
Proof.
  split.
  - exact loop_body_step.
  - intros fuel s s' tr Hlt H.
    destruct (run_loop_exit fuel s s' tr H) as [Hge Hlast].
    split; [exact Hge | apply Hlast; exact Hlt].
Qed.

(** The code after the loop returns a float within [exittol], or raises
    [ValueError]. *)
Lemma finish_outcome (s : loop_state State) :
  (forall v, fst (fin s) = Ret v -> exists m, v = PyFloat m /\ m <= p_exittol p) /\
  (forall e, fst (fin s) = Raise e -> exists msg, e = ValueError msg).
Proof.
  unfold_stepper.
  destruct (p_nstatus p >? 0)%Z; simpl;
    (destruct (resid_maxabs (ls_fields s) (initializer (ls_t s))) as [|x xs]; simpl;
     [split; intros ? H; inversion H; eauto|]);
    (destruct (Qgtb (list_max x xs) (p_exittol p)) eqn:E; simpl;
     split; intros ? H; inversion H; subst; eauto;
     exists (list_max x xs); split; [reflexivity | apply Qgtb_false; exact E]).
Qed.

(** The code after the loop writes the final dump exactly when
    [nstatus > 0]. *)
Lemma finish_dump (s : loop_state State) :
  ((0 < p_nstatus p)%Z ->
     exists rest, snd (fin s) =
       [EvInfo (MsgText "Writing final dump."); EvEos; EvExact (ls_t s);
        EvInfo (MsgStatus (ls_t s) (ls_istep s) (ls_dt s) (ls_cfl s)
                  (resid_maxabs (ls_fields s) (initializer (ls_t s))));
        EvDump (p_casename p) (ls_istep s) true] ++ rest) /\
  ((p_nstatus p <= 0)%Z -> forall b st w, ~ In (EvDump b st w) (snd (fin s))).
Proof.
  split; intros Hn.
  - assert (E : (p_nstatus p >? 0)%Z = true) by (apply Z.gtb_lt; lia).
    unfold_stepper. rewrite E. simpl.
    destruct (resid_maxabs (ls_fields s) (initializer (ls_t s))) as [|x xs]; simpl;
      [eexists; reflexivity|].
    destruct (Qgtb (list_max x xs) (p_exittol p)); simpl; eexists; reflexivity.
  - assert (E : (p_nstatus p >? 0)%Z = false)
      by (destruct (p_nstatus p >? 0)%Z eqn:G; [apply Z.gtb_lt in G; lia | reflexivity]).
    intros b st w. unfold_stepper. rewrite E. simpl.
    destruct (resid_maxabs (ls_fields s) (initializer (ls_t s))) as [|x xs]; simpl;
      [intros [H|[]]; discriminate|].
    destruct (Qgtb (list_max x xs) (p_exittol p)); simpl;
      intros H; repeat (destruct H as [H|H]; [discriminate H|]); contradiction.
Qed.

Lemma stepper_after_loop fuel (s : loop_state State) trl :
  p_time p < p_tfinal p ->
  loop fuel init = Some (Ret s, trl) ->
  stepper fuel =
  Some (fst (fin s),
        EvInfo (MsgText "Num elements, Timestep, Final time, ...") :: trl ++ snd (fin s)).
Proof.
  intros Hlt H. unfold euler_flow_stepper.
  destruct (Qle_bool (p_tfinal p) (p_time p)) eqn:E.
  - apply Qle_bool_iff in E. lra.
  - rewrite H. unfold bind, emit. simpl. destruct (fin s); reflexivity.
Qed.

(** Claim C4 (amended): when [t_final <= t] on entry the function
    returns [0.0] with no loop and no dump; otherwise, once the loop has
    exited, a final [write_soln] dump at the final [istep] (whatever
    [istep mod nstatus]) is written exactly when [nstatus > 0]; with
    [nstatus <= 0] the run writes no final dump. *)
Theorem euler_flow_stepper_final_dump :
  (p_tfinal p <= p_time p -> forall fuel, stepper fuel = Some (Ret (PyFloat 0), [])) /\
  (forall fuel (s : loop_state State) trl,
     p_time p < p_tfinal p ->
     loop fuel init = Some (Ret s, trl) ->
     stepper fuel =
       Some (fst (fin s),
             EvInfo (MsgText "Num elements, Timestep, Final time, ...")
               :: trl ++ snd (fin s)) /\
     ((0 < p_nstatus p)%Z ->
        exists rest, snd (fin s) =
          [EvInfo (MsgText "Writing final dump."); EvEos; EvExact (ls_t s);
           EvInfo (MsgStatus (ls_t s) (ls_istep s) (ls_dt s) (ls_cfl s)
                     (resid_maxabs (ls_fields s) (initializer (ls_t s))));
           EvDump (p_casename p) (ls_istep s) true] ++ rest) /\
     ((p_nstatus p <= 0)%Z -> forall b st w, ~ In (EvDump b st w) (snd (fin s)))).
Proof.
  split.
  - intros Hle fuel. unfold euler_flow_stepper.
    rewrite (proj2 (Qle_bool_iff _ _) Hle). reflexivity.
  - intros fuel s trl Hlt H. split; [apply stepper_after_loop; assumption|].
    apply finish_dump.
Qed.

(** Once the loop has exited at [s] with final per-field errors [x :: xs],
    [finish] raises the divergence [ValueError] exactly when their maximum
    exceeds [exittol], and otherwise returns that maximum. *)
Lemma finish_verdict (s : loop_state State) x xs :
  resid_maxabs (ls_fields s) (initializer (ls_t s)) = x :: xs ->
  fst (fin s) = if Qgtb (list_max x xs) (p_exittol p)
                then Raise (ValueError "Solution failed to follow expected result.")
                else Ret (PyFloat (list_max x xs)).
Proof.
  intros Hr. unfold_stepper.
  destruct (p_nstatus p >? 0)%Z; simpl; rewrite Hr; simpl;
    destruct (Qgtb (list_max x xs) (p_exittol p)); reflexivity.
Qed.

(** Claim C5 (amended): [euler_flow_stepper] returns a float, never a
    [(step, t, state)] triple.  When [t_final <= t] on entry it returns
    [0.0] at once, with no output.  Otherwise, once the loop has exited at
    [s], with final per-field errors [x :: xs] against the exact solution
    at the final time, it raises [ValueError("Solution failed to follow
    expected result.")] when their maximum exceeds [exittol] and returns
    exactly that maximum otherwise.  Whatever the run, a returned value is
    a float (within [exittol], or the early [0.0]) and the exceptions it
    raises are [ValueError] and [ZeroDivisionError], never
    [ExactSolutionMismatch]. *)
Theorem euler_flow_stepper_result :
  (p_tfinal p <= p_time p -> forall fuel, stepper fuel = Some (Ret (PyFloat 0), [])) /\
  (forall fuel (s : loop_state State) trl x xs,
     p_time p < p_tfinal p ->
     loop fuel init = Some (Ret s, trl) ->
     resid_maxabs (ls_fields s) (initializer (ls_t s)) = x :: xs ->
     exists tr, stepper fuel =
       Some (if Qgtb (list_max x xs) (p_exittol p)
             then Raise (ValueError "Solution failed to follow expected result.")
             else Ret (PyFloat (list_max x xs)), tr)) /\
  (forall fuel r tr,
     stepper fuel = Some (r, tr) ->
     (forall v, r = Ret v ->
        exists m, v = PyFloat m /\
                  (m <= p_exittol p \/ (p_tfinal p <= p_time p /\ m = 0))) /\
     (forall e, r = Raise e -> (exists msg, e = ValueError msg) \/ e = ZeroDivisionError)).
Proof.
  split; [|split].
  - intros Hle fuel. unfold euler_flow_stepper.
    rewrite (proj2 (Qle_bool_iff _ _) Hle). reflexivity.
  - intros fuel s trl x xs Hlt R Hr.
    rewrite (stepper_after_loop fuel s trl Hlt R), (finish_verdict s x xs Hr).
    eexists. reflexivity.
  - intros fuel r tr H. unfold euler_flow_stepper in H.
    destruct (Qle_bool (p_tfinal p) (p_time p)) eqn:E.
    + inversion H; subst. apply Qle_bool_iff in E.
      split; intros ? Hr; inversion Hr; subst. eauto.
    + destruct (loop fuel init) as [[[s|e] trl]|] eqn:L; [| |discriminate].
      * unfold bind, emit in H. simpl in H.
        destruct (finish_outcome s) as [Hret Hraise].
        destruct (fin s) as [o tr'] eqn:F. inversion H; subst r.
        split.
        -- intros v Hv. subst o. destruct (Hret v eq_refl) as (m & Hm & Hle).
           exists m. auto.
        -- intros e He. subst o. left. apply Hraise. reflexivity.
      * unfold bind, emit in H. simpl in H. inversion H; subst r.
        split; intros ? Hr; inversion Hr; subst.
        right. eapply run_loop_raise. exact L.
Qed.

End StepperProofs.

(** The run [t = 0 .. 1] with the fixed step [dt = 3/4] is a witness of
    claim C2's theorem: the loop ends within [[1, 1 + dt)]. *)
Lemma euler_flow_stepper_clock_witness :
  match Demo.loop Demo.init_zero (Demo.params (3 # 4) 0 1) 10
          (Demo.start Demo.init_zero (Demo.params (3 # 4) 0 1)) with
  | Some (Ret s, _) => 1 <= ls_t s /\ ls_t s < 1 + ls_dt s
  | _ => False
  end.
Proof.
  destruct (Demo.loop Demo.init_zero (Demo.params (3 # 4) 0 1) 10
              (Demo.start Demo.init_zero (Demo.params (3 # 4) 0 1)))
    as [[[s|e] tr]|] eqn:R.
  - exact (proj2 (euler_flow_stepper_clock Demo.rk4_step Demo.get_inviscid_timestep
             Demo.init_zero Demo.resid_maxabs (Demo.params (3 # 4) 0 1))
             10%nat (Demo.start Demo.init_zero (Demo.params (3 # 4) 0 1)) s tr
             eq_refl R).
  - vm_compute in R. discriminate R.
  - vm_compute in R. discriminate R.
Defined.

(** Claim C2 as stated fails: from [t = 0] with [dt = 3/4] and
    [t_final = 1] the loop runs 2 steps and ends at [t = 3/2], half a
    time unit past [t_final] (all values exact in binary floating
    point): the last [dt] is not clipped to [t_final - t = 1/4]. *)
Lemma euler_flow_stepper_overshoot :
  match Demo.loop Demo.init_zero (Demo.params (3 # 4) 0 1) 10
          (Demo.start Demo.init_zero (Demo.params (3 # 4) 0 1)) with
  | Some (Ret s, _) =>
      ls_istep s = 2%Z /\ ls_t s == 3 # 2 /\ ls_dt s == 3 # 4 /\ 1 + (1 # 4) < ls_t s
  | _ => False
  end.
Proof.
  vm_compute. repeat split; reflexivity.
Qed.

(** A run with [nstatus = 2] is a witness of claim C4's theorem: after
    the loop, the final dump is written at the final step. *)
Lemma euler_flow_stepper_final_dump_witness :
  match Demo.loop Demo.init_zero (Demo.params (1 # 2) 2 1) 10
          (Demo.start Demo.init_zero (Demo.params (1 # 2) 2 1)) with
  | Some (Ret s, _) =>
      exists rest, snd (finish Demo.init_zero Demo.resid_maxabs
                          (Demo.params (1 # 2) 2 1) s) =
        [EvInfo (MsgText "Writing final dump."); EvEos; EvExact (ls_t s);
         EvInfo (MsgStatus (ls_t s) (ls_istep s) (ls_dt s) (ls_cfl s)
                   (Demo.resid_maxabs (ls_fields s) (Demo.init_zero (ls_t s))));
         EvDump "pulse" (ls_istep s) true] ++ rest
  | _ => False
  end.
Proof.
  destruct (Demo.loop Demo.init_zero (Demo.params (1 # 2) 2 1) 10
              (Demo.start Demo.init_zero (Demo.params (1 # 2) 2 1)))
    as [[[s|e] tr]|] eqn:R.
  - refine (proj1 (proj2 (proj2 (euler_flow_stepper_final_dump Demo.rk4_step
             Demo.get_inviscid_timestep Demo.init_zero Demo.resid_maxabs
             (Demo.params (1 # 2) 2 1)) 10%nat s tr eq_refl R)) _).
    reflexivity.
  - vm_compute in R. discriminate R.
  - vm_compute in R. discriminate R.
Defined.

(** Claim C4 as stated fails: with [nstatus = 0] the run from [t = 0]
    to [t_final = 1] completes and writes no dump at all, final or not. *)
Lemma euler_flow_stepper_no_final_dump :
  match Demo.stepper Demo.init_zero (Demo.params (1 # 2) 0 1) 10 with
  | Some (_, tr) => forall b st w, ~ In (EvDump b st w) tr
  | None => False
  end.
Proof.
  vm_compute. intros b st w H.
  repeat (destruct H as [H|H]; [discriminate H|]). contradiction.
Qed.

(** A completed run is a witness of claim C5's theorem: from [t = 0] to
    [t_final = 1] with [dt = 1/2], exact fields and [exittol = 1], it
    returns its final maximum error, and its result is a float. *)
Lemma euler_flow_stepper_result_witness :
  match Demo.loop Demo.init_zero (Demo.params (1 # 2) 0 1) 10
          (Demo.start Demo.init_zero (Demo.params (1 # 2) 0 1)),
        Demo.stepper Demo.init_zero (Demo.params (1 # 2) 0 1) 10 with
  | Some (Ret s, _), Some (r, _) =>
      (exists tr, Demo.stepper Demo.init_zero (Demo.params (1 # 2) 0 1) 10 =
         Some (if Qgtb (Qabs (ls_fields s - Demo.init_zero (ls_t s))) 1
               then Raise (ValueError "Solution failed to follow expected result.")
               else Ret (PyFloat (Qabs (ls_fields s - Demo.init_zero (ls_t s)))), tr)) /\
      (forall v, r = Ret v ->
         exists m, v = PyFloat m /\ (m <= 1 \/ (1 <= 0 /\ m = 0))) /\
      (forall e, r = Raise e -> (exists msg, e = ValueError msg) \/ e = ZeroDivisionError)
  | _, _ => False
  end.
Proof.
  destruct (Demo.loop Demo.init_zero (Demo.params (1 # 2) 0 1) 10
              (Demo.start Demo.init_zero (Demo.params (1 # 2) 0 1)))
    as [[[s|e] trl]|] eqn:L;
    [|vm_compute in L; discriminate L|vm_compute in L; discriminate L].
  destruct (Demo.stepper Demo.init_zero (Demo.params (1 # 2) 0 1) 10)
    as [[r tr]|] eqn:R; [|vm_compute in R; discriminate R].
  destruct (euler_flow_stepper_result Demo.rk4_step Demo.get_inviscid_timestep
              Demo.init_zero Demo.resid_maxabs (Demo.params (1 # 2) 0 1))
    as (_ & Hfinal & Hany).
  split.
  - rewrite <- R. exact (Hfinal 10%nat s trl _ [] eq_refl L eq_refl).
  - exact (Hany 10%nat r tr R).
Defined.

(** Claim C5 as stated fails: a completed run within tolerance returns
    the float [0.0], not a [(step, t, state)] triple; a run whose final
    error [1] exceeds [exittol = 1/1000] raises [ValueError], not an
    exception carrying the last step, time and state. *)
Lemma euler_flow_stepper_no_triple :
  match Demo.stepper Demo.init_zero (Demo.params (1 # 2) 0 1) 10,
        Demo.stepper Demo.init_linear (Demo.params (1 # 2) 0 (1 # 1000)) 10 with
  | Some (r1, _), Some (r2, _) =>
      r1 = Ret (PyFloat 0) /\
      (forall st t x, r1 <> Ret (PyTriple st t x)) /\
      r2 = Raise (ValueError "Solution failed to follow expected result.") /\
      (forall st t x, r2 <> Raise (ExactSolutionMismatch st t x))
  | _, _ => False
  end.
Proof.
  vm_compute. repeat split; intros; discriminate.
Qed.

(** * Further properties of the embedded code *)

(** ** [check_step] *)

(** Due steps repeat with the interval as period: shifting the step by
    any multiple of the interval does not change [check_step]. *)
Theorem check_step_periodic :
  forall step interval k : Z,
    check_step (step + k * interval) interval = check_step step interval.
Proof.
  intros step interval k. unfold check_step.
  destruct (Z.eqb_spec interval 0); [reflexivity|].
  destruct (interval <? 0)%Z; [reflexivity|].
  rewrite Z.mod_add by exact n. reflexivity.
Qed.

(** Step 0 is due for every non-negative interval and never for a
    negative one; with interval 1 every step is due. *)
Theorem check_step_zero_and_one :
  forall step interval : Z,
    check_step 0 interval = (0 <=? interval)%Z /\ check_step step 1 = true.
Proof.
  intros step interval. unfold check_step. split.
  - destruct (Z.eqb_spec interval 0); [subst; reflexivity|].
    destruct (Z.ltb_spec interval 0).
    + symmetry. apply Z.leb_gt. exact H.
    + rewrite Zmod_0_l. simpl. symmetry. apply Z.leb_le. exact H.
  - simpl. rewrite Z.mod_1_r. reflexivity.
Qed.

(** ** [inviscid_sim_timestep] *)

(** Clipping only shrinks the step: the result is at most the requested
    step ([dt], or the CFL step when [constant_cfl]), and [t] plus the
    result never passes [t_final].  In particular, called at or after
    [t_final], it returns a zero or negative step rather than failing. *)
Theorem inviscid_sim_timestep_shrinks :
  forall (Discr State Eos : Type) (g : Discr -> State -> Q -> Eos -> Q)
         discr state (t dt cfl : Q) eos (t_final : Q) (constant_cfl : bool),
    let dt' := inviscid_sim_timestep g discr state t dt cfl eos t_final constant_cfl in
    dt' <= (if constant_cfl then g discr state cfl eos else dt) /\
    t + dt' <= t_final /\
    (t_final <= t -> dt' <= 0).
Proof.
  intros Discr State Eos g discr state t dt cfl eos t_final constant_cfl dt'.
  subst dt'. unfold inviscid_sim_timestep.
  set (mydt := if constant_cfl then g discr state cfl eos else dt).
  destruct (Qgtb (t + mydt) t_final) eqn:E.
  - apply Qgtb_true in E. repeat split; intros; lra.
  - apply Qgtb_false in E. repeat split; intros; lra.
Qed.

(** With a fixed step, the selector is idempotent: feeding its result back
    as [dt] at the same time returns it unchanged. *)
Theorem inviscid_sim_timestep_idempotent :
  forall (Discr State Eos : Type) (g : Discr -> State -> Q -> Eos -> Q)
         discr state (t dt cfl : Q) eos (t_final : Q),
    let dt' := inviscid_sim_timestep g discr state t dt cfl eos t_final false in
    inviscid_sim_timestep g discr state t dt' cfl eos t_final false = dt'.
Proof.
  intros Discr State Eos g discr state t dt cfl eos t_final dt'.
  subst dt'. unfold inviscid_sim_timestep.
  destruct (Qgtb (t + dt) t_final) eqn:E.
  - assert (F : Qgtb (t + (t_final - t)) t_final = false) by (apply Qgtb_false; lra).
    rewrite F. reflexivity.
  - rewrite E. reflexivity.
Qed.

(** ** [sim_checkpoint] *)

(** Splits every test of the checkpoint, innermost first. *)
Ltac ck_destruct :=
  repeat (match goal with
          | |- context [check_step ?a ?b] => destruct (check_step a b) eqn:?
          | |- context [match ?c with Some _ => _ | None => _ end] =>
              lazymatch c with
              | context [match _ with Some _ => _ | None => _ end] => fail
              | _ => destruct c eqn:?
              end
          | |- context [match ?l with [] => _ | _ :: _ => _ end] =>
              destruct l eqn:?
          | |- context [if ?b then _ else _] =>
              lazymatch b with
              | context [if _ then _ else _] => fail
              | _ => destruct b eqn:?
              end
          end; simpl).

(** The checkpoint status is 0 or 1; it is 1 only on a status step with a
    reference solution, and only after the divergence error has been
    logged. *)
Theorem sim_checkpoint_status_values :
  forall (State : Type) (compare_states : State -> State -> list Q) (q : State)
         vizname exact_soln step t dt cfl nstatus nviz exittol constant_cfl comm z,
    fst (sim_checkpoint compare_states q vizname exact_soln step t dt cfl
           nstatus nviz exittol constant_cfl comm) = Ret z ->
    (z = 0%Z \/ z = 1%Z) /\
    (z = 1%Z ->
       check_step step nstatus = true /\ is_some exact_soln = true /\
       In (EvError "Solution failed to follow expected result.")
          (snd (sim_checkpoint compare_states q vizname exact_soln step t dt cfl
                  nstatus nviz exittol constant_cfl comm))).
Proof.
  intros State compare_states q vizname exact_soln step t dt cfl nstatus nviz
    exittol constant_cfl comm z.
  unfold_checkpoint. ck_destruct; intros H; inversion H; subst;
    split; auto; intros Hz; try discriminate Hz;
    repeat split; simpl; auto 20.
Qed.

(** [sim_checkpoint] raises exactly on a status step with a reference
    solution for which [compare_states] returns no per-field error
    ([np.max] of an empty array), and the exception is that [ValueError]. *)
Theorem sim_checkpoint_raises :
  forall (State : Type) (compare_states : State -> State -> list Q) (q : State)
         vizname exact_soln step t dt cfl nstatus nviz exittol constant_cfl comm e,
    fst (sim_checkpoint compare_states q vizname exact_soln step t dt cfl
           nstatus nviz exittol constant_cfl comm) = Raise e <->
    (check_step step nstatus = true /\
     (exists f, exact_soln = Some f /\ compare_states q (f t) = []) /\
     e = ValueError "zero-size array to reduction operation maximum").
Proof.
  intros State compare_states q vizname exact_soln step t dt cfl nstatus nviz
    exittol constant_cfl comm e.
  unfold_checkpoint. ck_destruct; split;
    solve [ intros H; inversion H; subst; eauto 10
          | intros (H1 & (f' & H2 & H3) & H4); subst; first [discriminate | congruence]
          | intros (H1 & (f' & H2 & H3) & H4); discriminate ].
Qed.

(** A checkpoint that completes writes one visualization dump exactly on
    visualization steps, named by [vizname] and [step], and including the
    reference solution and residual exactly when one is supplied; it
    writes none otherwise. *)
Theorem sim_checkpoint_dumps :
  forall (State : Type) (compare_states : State -> State -> list Q) (q : State)
         vizname exact_soln step t dt cfl nstatus nviz exittol constant_cfl comm z,
    fst (sim_checkpoint compare_states q vizname exact_soln step t dt cfl
           nstatus nviz exittol constant_cfl comm) = Ret z ->
    filter is_dump (snd (sim_checkpoint compare_states q vizname exact_soln step t dt
                           cfl nstatus nviz exittol constant_cfl comm)) =
    (if check_step step nviz then [EvDump vizname step (is_some exact_soln)] else []).
Proof.
  intros State compare_states q vizname exact_soln step t dt cfl nstatus nviz
    exittol constant_cfl comm z.
  unfold_checkpoint. ck_destruct; intros H; first [discriminate H | reflexivity].
Qed.

(** The status line is logged once, on a status step, only when a
    reference solution is supplied (the message built without one is
    never logged) and only on rank 0 (the rank of [comm], 0 without a
    communicator); no other info line is logged. *)
Theorem sim_checkpoint_status_line :
  forall (State : Type) (compare_states : State -> State -> list Q) (q : State)
         vizname exact_soln step t dt cfl nstatus nviz exittol constant_cfl comm,
    filter is_info (snd (sim_checkpoint compare_states q vizname exact_soln step t dt
                           cfl nstatus nviz exittol constant_cfl comm)) =
    match exact_soln with
    | Some f =>
        if check_step step nstatus &&
           (match comm with Some r => r | None => 0 end =? 0)%Z
        then [EvInfo (MsgStatus t step dt cfl (compare_states q (f t)))]
        else []
    | None => []
    end.
Proof.
  intros State compare_states q vizname exact_soln step t dt cfl nstatus nviz
    exittol constant_cfl comm.
  unfold_checkpoint. ck_destruct; reflexivity.
Qed.

(** The reference solution is evaluated at most once per call, at the
    checkpoint time [t], and only when a step is due for status or
    visualization. *)
Theorem sim_checkpoint_exact_evaluations :
  forall (State : Type) (compare_states : State -> State -> list Q) (q : State)
         vizname exact_soln step t dt cfl nstatus nviz exittol constant_cfl comm,
    filter is_exact (snd (sim_checkpoint compare_states q vizname exact_soln step t dt
                            cfl nstatus nviz exittol constant_cfl comm)) =
    (if (check_step step nviz || check_step step nstatus) && is_some exact_soln
     then [EvExact t] else []).
Proof.
  intros State compare_states q vizname exact_soln step t dt cfl nstatus nviz
    exittol constant_cfl comm.
  unfold_checkpoint. ck_destruct; reflexivity.
Qed.

(** ** [euler_flow_stepper] *)

Section StepperExtras.
Context {State : Type}.
Variable rk4_step : State -> Q -> Q -> State.
Variable get_inviscid_timestep : State -> Q -> Q.
Variable initializer : Q -> State.
Variable resid_maxabs : State -> State -> list Q.
Variable p : parameters.

Local Abbreviation body := (loop_body rk4_step get_inviscid_timestep initializer resid_maxabs p).
Local Abbreviation loop := (run_loop rk4_step get_inviscid_timestep initializer resid_maxabs p).
Local Abbreviation fin := (finish initializer resid_maxabs p).
Local Abbreviation stepper :=
  (euler_flow_stepper rk4_step get_inviscid_timestep initializer resid_maxabs p).
Local Abbreviation init := (init_state get_inviscid_timestep initializer p).

Ltac unfold_stepper :=
  unfold loop_body, finish, write_soln, bind, emit, ret, raise, np_max; simpl.

Lemma loop_body_dumps (s : loop_state State) b st w :
  In (EvDump b st w) (snd (body s)) ->
  b = p_casename p /\ (0 < p_nstatus p)%Z /\ st = ls_istep s /\
  (ls_istep s mod p_nstatus p = 0)%Z.
Proof.
  unfold_stepper.
  destruct (p_constantcfl p); simpl;
    [|destruct (Qeq_bool (ls_sdt s) 0); simpl; [intros []|]];
    (destruct (p_nstatus p >? 0)%Z eqn:G; simpl;
     [destruct (ls_istep s mod p_nstatus p =? 0)%Z eqn:K; simpl|]);
    intros H; repeat (destruct H as [H|H]; [try discriminate H|]);
    try contradiction;
    inversion H; subst; apply Z.gtb_lt in G; apply Z.eqb_eq in K; auto.
Qed.

(** Inside the loop, dumps are written only when [nstatus > 0], named by
    the case name, at steps that are multiples of [nstatus]. *)
Theorem run_loop_dumps_on_status_steps :
  forall fuel (s : loop_state State) r tr,
    loop fuel s = Some (r, tr) ->
    forall b st w, In (EvDump b st w) tr ->
      b = p_casename p /\ (0 < p_nstatus p)%Z /\ (st mod p_nstatus p = 0)%Z.
Proof.
  induction fuel as [|n IH]; intros s r tr H b st w Hin; simpl in H; [discriminate|].
  destruct (Qltb (ls_t s) (p_tfinal p)).
  - destruct (body s) as [[s1|e] tr1] eqn:B.
    + destruct (loop n s1) as [[r2 tr2]|] eqn:R; [|discriminate].
      inversion H; subst. apply in_app_or in Hin as [Hin|Hin].
      * assert (Hb : In (EvDump b st w) (snd (body s))) by (rewrite B; exact Hin).
        destruct (loop_body_dumps s b st w Hb) as (? & ? & -> & ?). auto.
      * eapply IH; eassumption.
    + inversion H; subst.
      assert (Hb : In (EvDump b st w) (snd (body s))) by (rewrite B; exact Hin).
      destruct (loop_body_dumps s b st w Hb) as (? & ? & -> & ?). auto.
  - inversion H; subst. destruct Hin.
Qed.

(** Once the loop has exited at [s] with final per-field errors
    [x :: xs], the run raises the divergence [ValueError] exactly when
    their maximum exceeds [exittol], and otherwise returns that maximum. *)
Theorem euler_flow_stepper_verdict :
  forall fuel (s : loop_state State) trl x xs,
    p_time p < p_tfinal p ->
    loop fuel init = Some (Ret s, trl) ->
    resid_maxabs (ls_fields s) (initializer (ls_t s)) = x :: xs ->
    exists tr, stepper fuel =
      Some (if Qgtb (list_max x xs) (p_exittol p)
            then Raise (ValueError "Solution failed to follow expected result.")
            else Ret (PyFloat (list_max x xs)), tr).
Proof.
  intros fuel s trl x xs Hlt R Hr.
  rewrite (stepper_after_loop rk4_step get_inviscid_timestep initializer resid_maxabs p
             fuel s trl Hlt R).
  erewrite finish_verdict by exact Hr.
  eexists. reflexivity.
Qed.

End StepperExtras.

(** ** The call in [examples/pulse-mpi.py] *)

Lemma check_keywords_error (all bound kws : list string) r :
  check_keywords all bound kws = Some r -> r <> CallBound.
Proof.
  induction kws as [|k ks IH]; simpl; [discriminate|].
  destruct (negb (existsb (String.eqb k) all)); [intros H; inversion H; discriminate|].
  destruct (existsb (String.eqb k) bound); [intros H; inversion H; discriminate|].
  exact IH.
Qed.

(** A call that leaves a parameter without default unbound (past the
    positionals and named by no keyword) raises [TypeError]. *)
Lemma py_bind_missing_required :
  forall (sig : list py_param) npos kws q,
    In q (skipn npos sig) -> pp_default q = false -> ~ In (pp_name q) kws ->
    py_bind sig npos kws <> CallBound.
Proof.
  intros sig npos kws q Hin Hd Hk.
  unfold py_bind.
  destruct (Nat.ltb (List.length sig) npos); [discriminate|].
  destruct (check_keywords (names_of sig) (names_of (firstn npos sig)) kws) as [err|] eqn:E.
  - exact (check_keywords_error _ _ _ _ E).
  - assert (Hm : In (pp_name q)
                   (map pp_name (filter (fun q0 => negb (pp_default q0) &&
                      negb (existsb (String.eqb (pp_name q0)) kws)) (skipn npos sig)))).
    { apply in_map, filter_In. split; [exact Hin|].
      rewrite Hd. simpl. apply negb_true_iff.
      destruct (existsb (String.eqb (pp_name q)) kws) eqn:X; [|reflexivity].
      apply existsb_exists in X as (k & Hk' & Heq).
      apply String.eqb_eq in Heq. subst k. contradiction. }
    destruct (map pp_name _); [destruct Hm | discriminate].
Qed.

(** Every call of [sim_checkpoint] that passes only [discr, visualizer,
    eos] by position and no [logger] keyword raises [TypeError]: this is
    the call [my_checkpoint] makes in [examples/pulse-mpi.py], whatever
    its step, time and state. *)
Theorem sim_checkpoint_call_without_logger :
  forall kws, ~ In "logger" kws ->
    py_bind sim_checkpoint_signature 3 kws <> CallBound.
Proof.
  intros kws Hk.
  apply (py_bind_missing_required sim_checkpoint_signature 3 kws
           {| pp_name := "logger"; pp_default := false |}).
  - simpl. left. reflexivity.
  - reflexivity.
  - exact Hk.
Qed.

(** ** Witnesses of the further properties *)

(** Called at [t = 2], past [t_final = 1], with [dt = 1/2]: the step
    returned is [-1]. *)
Lemma inviscid_sim_timestep_shrinks_witness :
  1 <= 2 /\
  inviscid_sim_timestep (fun (_ : unit) (_ : Q) (_ : Q) (_ : unit) => 1) tt 0 2 (1 # 2) 1 tt 1
    false <= 0.
Proof.
  split; [apply Qle_bool_iff; reflexivity|].
  apply (inviscid_sim_timestep_shrinks unit Q unit
           (fun (_ : unit) (_ : Q) (_ : Q) (_ : unit) => 1) tt 0 2 (1 # 2) 1 tt 1 false).
  apply Qle_bool_iff. reflexivity.
Defined.

Lemma sim_checkpoint_status_values_witness :
  fst (sim_checkpoint Demo.compare_states 0 "pulse" (Some (fun _ => 1)) 0 0 (1 # 2) 1
         0 (-1) (1 # 1000) false None) = Ret 1%Z /\
  check_step 0 0 = true /\ is_some (Some (fun _ : Q => 1)) = true /\
  In (EvError "Solution failed to follow expected result.")
     (snd (sim_checkpoint Demo.compare_states 0 "pulse" (Some (fun _ => 1)) 0 0 (1 # 2) 1
             0 (-1) (1 # 1000) false None)).
Proof.
  assert (H : fst (sim_checkpoint Demo.compare_states 0 "pulse" (Some (fun _ => 1)) 0 0
                     (1 # 2) 1 0 (-1) (1 # 1000) false None) = Ret 1%Z)
    by reflexivity.
  split; [exact H|].
  exact (proj2 (sim_checkpoint_status_values Q Demo.compare_states 0 "pulse"
                  (Some (fun _ => 1)) 0 0 (1 # 2) 1 0 (-1) (1 # 1000) false None 1%Z H)
               eq_refl).
Defined.

(** A [compare_states] that reports no field makes the status step
    raise. *)
Lemma sim_checkpoint_raises_witness :
  fst (sim_checkpoint (fun (_ _ : Q) => []) 0 "pulse" (Some (fun _ => 1)) 0 0 (1 # 2) 1
         0 (-1) (1 # 1000) false None) =
  Raise (ValueError "zero-size array to reduction operation maximum").
Proof.
  apply (sim_checkpoint_raises Q (fun (_ _ : Q) => []) 0 "pulse" (Some (fun _ => 1)) 0 0
           (1 # 2) 1 0 (-1) (1 # 1000) false None).
  split; [reflexivity|]. split; [|reflexivity].
  exists (fun _ => 1). split; reflexivity.
Defined.

Lemma sim_checkpoint_dumps_witness :
  filter is_dump (snd (sim_checkpoint Demo.compare_states 0 "pulse" None 6 0 (1 # 2) 1
                         (-1) 3 (1 # 1000) false None)) =
  [EvDump "pulse" 6 false].
Proof.
  exact (sim_checkpoint_dumps Q Demo.compare_states 0 "pulse" None 6 0 (1 # 2) 1
           (-1) 3 (1 # 1000) false None 0%Z eq_refl).
Defined.

(** A run with [nstatus = 2]: its loop dumps are named [pulse], at even
    steps. *)
Lemma run_loop_dumps_on_status_steps_witness :
  match Demo.loop Demo.init_zero (Demo.params (1 # 4) 2 1) 10
          (Demo.start Demo.init_zero (Demo.params (1 # 4) 2 1)) with
  | Some (_, tr) =>
      forall b st w, In (EvDump b st w) tr ->
        b = "pulse" /\ (0 < 2)%Z /\ (st mod 2 = 0)%Z
  | None => False
  end.
Proof.
  destruct (Demo.loop Demo.init_zero (Demo.params (1 # 4) 2 1) 10
              (Demo.start Demo.init_zero (Demo.params (1 # 4) 2 1)))
    as [[r tr]|] eqn:R.
  - exact (run_loop_dumps_on_status_steps Demo.rk4_step Demo.get_inviscid_timestep
             Demo.init_zero Demo.resid_maxabs (Demo.params (1 # 4) 2 1) 10%nat
             (Demo.start Demo.init_zero (Demo.params (1 # 4) 2 1)) r tr R).
  - vm_compute in R. discriminate R.
Defined.

(** A run whose final error [1] exceeds [exittol = 1/1000] ends in the
    divergence [ValueError]. *)
Lemma euler_flow_stepper_verdict_witness :
  match Demo.loop Demo.init_linear (Demo.params (1 # 2) 0 (1 # 1000)) 10
          (Demo.start Demo.init_linear (Demo.params (1 # 2) 0 (1 # 1000))) with
  | Some (Ret s, _) =>
      exists tr, Demo.stepper Demo.init_linear (Demo.params (1 # 2) 0 (1 # 1000)) 10 =
        Some (if Qgtb (Qabs (ls_fields s - Demo.init_linear (ls_t s))) (1 # 1000)
              then Raise (ValueError "Solution failed to follow expected result.")
              else Ret (PyFloat (Qabs (ls_fields s - Demo.init_linear (ls_t s)))), tr)
  | _ => False
  end.
Proof.
  destruct (Demo.loop Demo.init_linear (Demo.params (1 # 2) 0 (1 # 1000)) 10
              (Demo.start Demo.init_linear (Demo.params (1 # 2) 0 (1 # 1000))))
    as [[[s|e] tr]|] eqn:R.
  - exact (euler_flow_stepper_verdict Demo.rk4_step Demo.get_inviscid_timestep
             Demo.init_linear Demo.resid_maxabs (Demo.params (1 # 2) 0 (1 # 1000))
             10%nat s tr _ [] eq_refl R eq_refl).
  - vm_compute in R. discriminate R.
  - vm_compute in R. discriminate R.
Defined.

(** The keywords of [my_checkpoint]'s call do not include [logger]; the
    binding reports it missing. *)
Lemma sim_checkpoint_call_without_logger_witness :
  ~ In "logger" my_checkpoint_keywords /\
  py_bind sim_checkpoint_signature 3 my_checkpoint_keywords <> CallBound /\
  py_bind sim_checkpoint_signature 3 my_checkpoint_keywords = TypeErrorMissing ["logger"].
Proof.
  assert (H : ~ In "logger" my_checkpoint_keywords).
  { unfold my_checkpoint_keywords. simpl.
    intros H; repeat (destruct H as [H|H]; [discriminate H|]). exact H. }
  split; [exact H|]. split.
  - exact (sim_checkpoint_call_without_logger my_checkpoint_keywords H).
  - vm_compute. reflexivity.
Defined.
